(** * mod_h2 stream task: [h2_task.c]

    A shallow embedding of [src/mod_h2/h2_task.c] and the properties of
    the task life cycle (creation, execution, abort, destruction).

    Conventions.
    - A C pointer is an [option]: [None] is [NULL].  Reading a field
      through [NULL] is the [Fault] outcome.
    - Every call that acts on an existing collaborator object
      (multiplexer, bridge, pool, socket, connection) is recorded, in
      program order, as an [event]; a call that only constructs an
      object is modelled by what it returns.  An operation is a value of
      [M A]: the events it emitted and either its result or a fault.
    - What the collaborators answer is not in [h2_task.c]; their
      functions are the fields of class [Collaborators], named after
      the C functions they stand for.
    - [ap_log_cerror]/[ap_log_perror] only read their arguments; they
      are left out of the event list.
    - [assert(task)]: the operations take the task itself, not a
      pointer that could be null.
    - [h2_task_register_hooks] and [h2_task_pre_conn] only install the
      two filters below on a connection; they are not modelled. *)

From Stdlib Require Import ZArith List Bool Lia.
Import ListNotations.
Local Open Scope Z_scope.

(** ** Status codes and scalar types *)

Definition apr_status_t := Z.

(** The values are those of [apr_errno.h] on a POSIX system; the proofs
    use only that the three error codes differ from [APR_SUCCESS]. *)
Definition APR_SUCCESS : apr_status_t := 0.
Definition APR_ENOMEM : apr_status_t := 12.
Definition APR_EGENERAL : apr_status_t := 20014.
Definition APR_ECONNABORTED : apr_status_t := 103.

(** [status != APR_SUCCESS] *)
Definition status_failed (status : apr_status_t) : bool :=
  negb (status =? APR_SUCCESS).

(** Handles of objects this unit never looks into. *)
Definition h2_mplx := Z.
Definition apr_pool_t := Z.
Definition apr_socket_t := Z.
Definition server_rec := Z.

Definition ap_input_mode_t := Z.
Definition apr_read_type_e := Z.
Definition apr_off_t := Z.
Definition apr_bucket_brigade := list Z.
Definition h2_bucket := list Z.

(** [conn_rec], with the fields [h2_task.c] reads.  [conn_config] is the
    slot of [core_module] in the connection's configuration vector: the
    only slot this unit gets and sets. *)
Record conn_rec := mk_conn_rec {
  conn_id : Z;
  conn_pool : option apr_pool_t;
  base_server : option server_rec;
  sbh : Z;
  conn_config : option apr_socket_t
}.

Definition ap_get_module_config (cr : conn_rec) : option apr_socket_t :=
  conn_config cr.

Definition ap_set_module_config (cr : conn_rec) (s : option apr_socket_t)
  : conn_rec :=
  mk_conn_rec (conn_id cr) (conn_pool cr) (base_server cr) (sbh cr) s.

(** ** Integer conversions of the [running] flag

    [running] is an [apr_uint32_t]; [h2_task_set_running] receives an
    [int] and [h2_task_is_running] returns one. *)

Definition uint32_of_int (v : Z) : Z := v mod 2 ^ 32.
Definition int_of_uint32 (u : Z) : Z := (u + 2 ^ 31) mod 2 ^ 32 - 2 ^ 31.

(** ** Outcomes and the event writer *)

Inductive result (A : Type) : Type :=
| Ok (a : A)
| Fault.
Arguments Ok {A} a.
Arguments Fault {A}.

(** ** Collaborators

    What [h2_task.c] calls and does not define.

    - The bridge objects of [h2_task_input.h] and [h2_task_output.h]
      and their functions.
    - APR and httpd core.  [apr_pool_create_ex(&pool, NULL, NULL, NULL)]
      yields a status and the value it stores through [&pool];
      [apr_socket_create] likewise for [&task->socket].
    - What the request pipeline does while [ap_process_connection]
      runs: it pulls through the input filter and pushes through the
      output filter; another thread may call [h2_task_abort] in
      between. *)

Inductive pipeline_step : Type :=
| Pull (bb : apr_bucket_brigade) (mode : ap_input_mode_t)
       (block : apr_read_type_e) (readbytes : apr_off_t)
| Push (bb : apr_bucket_brigade)
| Abort_from_other_thread.

Class Collaborators : Type := {
  h2_task_input : Type;
  h2_task_output : Type;
  apr_pool_create_ex : apr_status_t * option apr_pool_t;
  apr_pcalloc : option apr_pool_t -> bool;
  ap_run_create_connection :
    option apr_pool_t -> option server_rec -> option apr_socket_t ->
    Z -> Z -> option conn_rec;
  apr_socket_create :
    option apr_pool_t -> apr_status_t * option apr_socket_t;
  h2_task_input_create :
    option apr_pool_t -> Z -> Z -> h2_bucket -> Z -> option h2_mplx ->
    option h2_task_input;
  h2_task_output_create :
    option apr_pool_t -> Z -> Z -> option h2_mplx -> option h2_task_output;
  h2_task_input_read :
    h2_task_input -> apr_bucket_brigade -> ap_input_mode_t ->
    apr_read_type_e -> apr_off_t ->
    apr_status_t * apr_bucket_brigade * h2_task_input;
  h2_task_output_write :
    h2_task_output -> apr_bucket_brigade -> apr_status_t * h2_task_output;
  h2_task_output_has_started : option h2_task_output -> bool;
  ap_process_connection_script :
    conn_rec -> option apr_socket_t -> list pipeline_step
}.

Section Task.

Context {collab : Collaborators}.

(** [struct h2_task] *)
Record h2_task := mk_h2_task {
  session_id : Z;
  stream_id : Z;
  aborted : Z;
  running : Z;
  mplx : option h2_mplx;
  pool : option apr_pool_t;
  c : option conn_rec;
  socket : option apr_socket_t;
  input : option h2_task_input;
  output : option h2_task_output
}.

(** The calls this unit makes on its collaborators. *)
Inductive event : Type :=
| Ev_mplx_out_reset (m : option h2_mplx) (stream : Z) (status : apr_status_t)
| Ev_mplx_reference (m : option h2_mplx)
| Ev_mplx_release (m : h2_mplx)
| Ev_input_destroy (i : h2_task_input)
| Ev_output_destroy (o : h2_task_output)
| Ev_input_read (i : h2_task_input)
| Ev_output_write (o : h2_task_output) (bb : apr_bucket_brigade)
| Ev_pool_destroy (p : apr_pool_t)
| Ev_ctx_create_for (cr : conn_rec)
| Ev_process_connection (cr : conn_rec) (s : option apr_socket_t)
| Ev_socket_close (s : option apr_socket_t).

Definition M (A : Type) : Type := list event * result A.

Definition ret {A} (a : A) : M A := ([], Ok a).
Definition fault {A} : M A := ([], Fault).
Definition call (e : event) : M unit := ([e], Ok tt).
Definition bind {A B} (m : M A) (k : A -> M B) : M B :=
  match m with
  | (evs, Ok a) => let (evs', r) := k a in (evs ++ evs', r)
  | (evs, Fault) => (evs, Fault)
  end.

Notation "x <- m ;; k" := (bind m (fun x => k))
  (at level 61, m at next level, right associativity).
Notation "m ;; k" := (bind m (fun _ => k))
  (at level 61, right associativity).

(** [p->field] *)
Definition load {S A} (p : option S) (field : S -> A) : M A :=
  match p with
  | Some s => ret (field s)
  | None => fault
  end.

(** Field assignments. *)
Definition set_stream_id (t : h2_task) (v : Z) : h2_task :=
  mk_h2_task (session_id t) v (aborted t) (running t) (mplx t) (pool t)
             (c t) (socket t) (input t) (output t).
Definition set_session_id (t : h2_task) (v : Z) : h2_task :=
  mk_h2_task v (stream_id t) (aborted t) (running t) (mplx t) (pool t)
             (c t) (socket t) (input t) (output t).
Definition set_aborted (t : h2_task) (v : Z) : h2_task :=
  mk_h2_task (session_id t) (stream_id t) v (running t) (mplx t) (pool t)
             (c t) (socket t) (input t) (output t).
Definition set_running (t : h2_task) (v : Z) : h2_task :=
  mk_h2_task (session_id t) (stream_id t) (aborted t) v (mplx t) (pool t)
             (c t) (socket t) (input t) (output t).
Definition set_mplx (t : h2_task) (v : option h2_mplx) : h2_task :=
  mk_h2_task (session_id t) (stream_id t) (aborted t) (running t) v (pool t)
             (c t) (socket t) (input t) (output t).
Definition set_pool (t : h2_task) (v : option apr_pool_t) : h2_task :=
  mk_h2_task (session_id t) (stream_id t) (aborted t) (running t) (mplx t) v
             (c t) (socket t) (input t) (output t).
Definition set_c (t : h2_task) (v : option conn_rec) : h2_task :=
  mk_h2_task (session_id t) (stream_id t) (aborted t) (running t) (mplx t)
             (pool t) v (socket t) (input t) (output t).
Definition set_socket (t : h2_task) (v : option apr_socket_t) : h2_task :=
  mk_h2_task (session_id t) (stream_id t) (aborted t) (running t) (mplx t)
             (pool t) (c t) v (input t) (output t).
Definition set_input (t : h2_task) (v : option h2_task_input) : h2_task :=
  mk_h2_task (session_id t) (stream_id t) (aborted t) (running t) (mplx t)
             (pool t) (c t) (socket t) v (output t).
Definition set_output (t : h2_task) (v : option h2_task_output) : h2_task :=
  mk_h2_task (session_id t) (stream_id t) (aborted t) (running t) (mplx t)
             (pool t) (c t) (socket t) (input t) v.

(** [task->stream_id], under a name the parameter [stream_id] of
    [h2_task_create] does not hide. *)
Definition field_stream_id : h2_task -> Z := stream_id.

(** What [apr_pcalloc] hands out: zeroed memory. *)
Definition zeroed_task : h2_task :=
  mk_h2_task 0 0 0 0 None None None None None None.

(** ** The filters *)

Definition h2_filter_stream_input (task : h2_task)
    (brigade : apr_bucket_brigade) (mode : ap_input_mode_t)
    (block : apr_read_type_e) (readbytes : apr_off_t)
  : M (apr_status_t * apr_bucket_brigade * h2_task) :=
  match input task with
  | None => ret (APR_ECONNABORTED, brigade, task)
  | Some i =>
      call (Ev_input_read i) ;;
      let '(status, brigade', i') :=
        h2_task_input_read i brigade mode block readbytes in
      ret (status, brigade', set_input task (Some i'))
  end.

Definition h2_filter_stream_output (task : h2_task)
    (brigade : apr_bucket_brigade) : M (apr_status_t * h2_task) :=
  match output task with
  | None => ret (APR_ECONNABORTED, task)
  | Some o =>
      call (Ev_output_write o brigade) ;;
      let '(status, o') := h2_task_output_write o brigade in
      ret (status, set_output task (Some o'))
  end.

(** ** [h2_conn_create] *)

Definition h2_conn_create (task : h2_task) (master : conn_rec)
  : apr_status_t * h2_task :=
  let task := set_socket task (ap_get_module_config master) in
  let task :=
    set_c task (ap_run_create_connection (pool task) (base_server master)
                  (socket task) (conn_id master) (sbh master)) in
  match c task with
  | None => (APR_EGENERAL, task)
  | Some _ => (APR_SUCCESS, task)
  end.

(** ** [h2_task_create] *)

Definition is_null {A} (p : option A) : bool :=
  match p with None => true | Some _ => false end.

Definition h2_task_create (session_id stream_id : Z) (master : conn_rec)
    (pool : option apr_pool_t) (input : h2_bucket) (input_eos : Z)
    (mplx : option h2_mplx) : M (option h2_task) :=
  let after_pool (pool : option apr_pool_t) : M (option h2_task) :=
    let task := if apr_pcalloc pool then Some zeroed_task else None in
    match task with
    | None =>
        (* h2_mplx_out_reset(mplx, task->stream_id, APR_ENOMEM) *)
        sid <- load task field_stream_id ;;
        call (Ev_mplx_out_reset mplx sid APR_ENOMEM) ;;
        ret None
    | Some task =>
        let task := set_stream_id task stream_id in
        let task := set_session_id task session_id in
        let task := set_pool task pool in
        call (Ev_mplx_reference mplx) ;;
        let task := set_mplx task mplx in
        let '(status, task) := h2_conn_create task master in
        if status_failed status then
          call (Ev_mplx_out_reset mplx stream_id status) ;;
          ret None
        else
          conn_pool_ <- load (c task) conn_pool ;;
          let task :=
            set_input task (h2_task_input_create conn_pool_ session_id
                              stream_id input input_eos mplx) in
          let task :=
            set_output task (h2_task_output_create conn_pool_ session_id
                               stream_id mplx) in
          conn <- load (c task) (fun cr => cr) ;;
          call (Ev_ctx_create_for conn) ;;
          ret (Some task)
    end in
  if true || is_null pool then
    let '(status, pool) := apr_pool_create_ex in
    if status_failed status then
      call (Ev_mplx_out_reset mplx stream_id status) ;;
      ret None
    else after_pool pool
  else after_pool pool.

(** ** [h2_task_destroy] *)

Definition h2_task_destroy (task : h2_task) : M (apr_status_t * h2_task) :=
  task <- match input task with
          | Some i => call (Ev_input_destroy i) ;; ret (set_input task None)
          | None => ret task
          end ;;
  task <- match output task with
          | Some o => call (Ev_output_destroy o) ;; ret (set_output task None)
          | None => ret task
          end ;;
  task <- match mplx task with
          | Some m => call (Ev_mplx_release m) ;; ret (set_mplx task None)
          | None => ret task
          end ;;
  match pool task with
  | Some p => call (Ev_pool_destroy p)
  | None => ret tt
  end ;;
  ret (APR_SUCCESS, task).

(** ** [h2_task_abort] *)

Definition h2_task_abort (task : h2_task) : M h2_task :=
  let task := set_aborted task 1 in
  task <- match input task with
          | Some i => call (Ev_input_destroy i) ;; ret (set_input task None)
          | None => ret task
          end ;;
  task <- match output task with
          | Some o => call (Ev_output_destroy o) ;; ret (set_output task None)
          | None => ret task
          end ;;
  ret task.

(** ** [ap_process_connection], seen from the task

    The pipeline calls the two filters with the task as their context;
    the statuses they hand back to it are collected in call order. *)

Fixpoint run_pipeline (steps : list pipeline_step) (task : h2_task)
  : M (list apr_status_t * h2_task) :=
  match steps with
  | [] => ret ([], task)
  | Pull bb mode block readbytes :: rest =>
      r <- h2_filter_stream_input task bb mode block readbytes ;;
      let '(status, _, task) := r in
      r' <- run_pipeline rest task ;;
      ret (status :: fst r', snd r')
  | Push bb :: rest =>
      r <- h2_filter_stream_output task bb ;;
      let '(status, task) := r in
      r' <- run_pipeline rest task ;;
      ret (status :: fst r', snd r')
  | Abort_from_other_thread :: rest =>
      task <- h2_task_abort task ;;
      run_pipeline rest task
  end.

Definition ap_process_connection (task : h2_task) (cr : conn_rec)
    (s : option apr_socket_t) : M h2_task :=
  call (Ev_process_connection cr s) ;;
  r <- run_pipeline (ap_process_connection_script cr s) task ;;
  ret (snd r).

(** ** [h2_task_do] *)

Definition h2_task_do (task : h2_task) : M (apr_status_t * h2_task) :=
  let '(status, s) := apr_socket_create (pool task) in
  let task := set_socket task s in
  if status_failed status then
    call (Ev_mplx_out_reset (mplx task) (stream_id task) status) ;;
    ret (status, task)
  else
    conn <- load (c task) (fun cr => cr) ;;
    let conn := ap_set_module_config conn (socket task) in
    let task := set_c task (Some conn) in
    task <- ap_process_connection task conn (socket task) ;;
    (if negb (h2_task_output_has_started (output task)) then
       call (Ev_mplx_out_reset (mplx task) (stream_id task) status)
     else ret tt) ;;
    call (Ev_socket_close (socket task)) ;;
    ret (APR_SUCCESS, task).

(** ** Accessors *)

Definition h2_task_get_session_id (task : h2_task) : Z := session_id task.
Definition h2_task_get_stream_id (task : h2_task) : Z := stream_id task.

Definition h2_task_is_running (task : h2_task) : Z :=
  int_of_uint32 (running task).

Definition h2_task_set_running (task : h2_task) (running : Z) : h2_task :=
  set_running task (uint32_of_int running).

(** ** Reading event lists *)

Definition resets (evs : list event)
  : list (option h2_mplx * Z * apr_status_t) :=
  flat_map (fun e => match e with
                     | Ev_mplx_out_reset m s st => [(m, s, st)]
                     | _ => []
                     end) evs.

Definition references (evs : list event) : list (option h2_mplx) :=
  flat_map (fun e => match e with
                     | Ev_mplx_reference m => [m]
                     | _ => []
                     end) evs.

Definition releases (evs : list event) : list h2_mplx :=
  flat_map (fun e => match e with
                     | Ev_mplx_release m => [m]
                     | _ => []
                     end) evs.

Definition pool_destroys (evs : list event) : list apr_pool_t :=
  flat_map (fun e => match e with
                     | Ev_pool_destroy p => [p]
                     | _ => []
                     end) evs.

Definition is_process_connection (e : event) : bool :=
  match e with
  | Ev_process_connection _ _ => true
  | _ => false
  end.

(** The statuses the pipeline sees when every bridge call is refused. *)
Fixpoint all_aborted (steps : list pipeline_step) : list apr_status_t :=
  match steps with
  | [] => []
  | Abort_from_other_thread :: rest => all_aborted rest
  | _ :: rest => APR_ECONNABORTED :: all_aborted rest
  end.


Definition is_abort (st : pipeline_step) : bool :=
  match st with Abort_from_other_thread => true | _ => false end.

(** The fields neither a bridge call nor an abort may change. *)
Definition same_frame (t t' : h2_task) : Prop :=
  session_id t' = session_id t /\ stream_id t' = stream_id t /\
  running t' = running t /\ mplx t' = mplx t /\ pool t' = pool t /\
  c t' = c t /\ socket t' = socket t.

Definition is_bridge_destroy (e : event) : bool :=
  match e with
  | Ev_input_destroy _ | Ev_output_destroy _ => true
  | _ => false
  end.

(** The bridge teardown of [h2_task_abort] and [h2_task_destroy]. *)
Definition bridge_teardown (task : h2_task) : list event :=
  match input task with Some i => [Ev_input_destroy i] | None => [] end ++
  match output task with Some o => [Ev_output_destroy o] | None => [] end.

(** The calls a filter or an abort makes: all of them on a bridge. *)
Definition is_bridge_event (e : event) : bool :=
  match e with
  | Ev_input_destroy _ | Ev_output_destroy _
  | Ev_input_read _ | Ev_output_write _ _ => true
  | _ => false
  end.

(** The calls that hand work to a bridge. *)
Definition is_bridge_io (e : event) : bool :=
  match e with
  | Ev_input_read _ | Ev_output_write _ _ => true
  | _ => false
  end.

Definition is_socket_close (e : event) : bool :=
  match e with
  | Ev_socket_close _ => true
  | _ => false
  end.



End Task.

Arguments h2_task {collab}.
Arguments event {collab}.

(** ** A concrete set of collaborators

    Used to run the operations on explicit inputs. *)

Module Scenario.

(** Modelled from the spec: [h2_task_input.c] is not part of the
    sources.  The input bridge holds the data and the end-of-stream
    flag supplied at task creation (section 4.3). *)
Record bridge_in := mk_bridge_in {
  in_data : h2_bucket;
  in_eos : Z
}.

(** Modelled from the spec: [h2_task_output.c] is not part of the
    sources.  The output bridge tracks whether any data has ever been
    written (section 4.4). *)
Record bridge_out := mk_bridge_out {
  out_started : bool;
  out_data : list Z
}.

Definition bridge_read (i : bridge_in) (bb : apr_bucket_brigade)
    (mode : ap_input_mode_t) (block : apr_read_type_e)
    (readbytes : apr_off_t)
  : apr_status_t * apr_bucket_brigade * bridge_in :=
  (APR_SUCCESS, bb ++ in_data i, mk_bridge_in [] (in_eos i)).

Definition bridge_write (o : bridge_out) (bb : apr_bucket_brigade)
  : apr_status_t * bridge_out :=
  (APR_SUCCESS, mk_bridge_out true (out_data o ++ bb)).

Definition bridge_has_started (o : option bridge_out) : bool :=
  match o with
  | Some o => out_started o
  | None => false
  end.

(** The connection [ap_run_create_connection] builds. *)
Definition slave_conn (p : option apr_pool_t) (s : option apr_socket_t)
    (id : Z) : conn_rec :=
  mk_conn_rec id p (Some 1) 0 s.

(** Collaborators that fail where told to: [pool_status] is the status
    of [apr_pool_create_ex], [alloc_ok] whether [apr_pcalloc] returns
    memory, [conn_ok] whether [ap_run_create_connection] returns a
    connection, [socket_status] the status of [apr_socket_create], and
    [script] what the pipeline does. *)
Definition collaborators (pool_status : apr_status_t)
    (alloc_ok conn_ok : bool) (socket_status : apr_status_t)
    (script : list pipeline_step) : Collaborators := {|
  h2_task_input := bridge_in;
  h2_task_output := bridge_out;
  apr_pool_create_ex :=
    (pool_status,
     if pool_status =? APR_SUCCESS then Some 100 else None);
  apr_pcalloc := fun _ => alloc_ok;
  ap_run_create_connection := fun p _ s id _ =>
    if conn_ok then Some (slave_conn p s id) else None;
  apr_socket_create := fun _ =>
    (socket_status,
     if socket_status =? APR_SUCCESS then Some 7 else None);
  h2_task_input_create := fun _ _ _ data eos _ =>
    Some (mk_bridge_in data eos);
  h2_task_output_create := fun _ _ _ _ => Some (mk_bridge_out false []);
  h2_task_input_read := bridge_read;
  h2_task_output_write := bridge_write;
  h2_task_output_has_started := bridge_has_started;
  ap_process_connection_script := fun _ _ => script
|}.

Definition master : conn_rec := mk_conn_rec 1 (Some 50) (Some 1) 0 (Some 3).

(** The task [h2_task_create] returns for session 1 and stream
    [stid], with multiplexer 9, when every step succeeds. *)
Definition fresh_task (K : Collaborators) (stid : Z) : @h2_task K :=
  mk_h2_task 1 stid 0 0 (Some 9) (Some 100)
             (Some (slave_conn (Some 100) (Some 3) 1)) (Some 3)
             (@h2_task_input_create K (Some 100) 1 stid [5] 1 (Some 9))
             (@h2_task_output_create K (Some 100) 1 stid (Some 9)).

(** Scenario A: the pipeline reads, pushes output and returns. *)
Definition K_output : Collaborators :=
  collaborators APR_SUCCESS true true APR_SUCCESS
    [Pull [] 0 0 10; Push [72; 105]].

(** Scenario B: the pipeline returns without a push. *)
Definition K_silent : Collaborators :=
  collaborators APR_SUCCESS true true APR_SUCCESS [Pull [] 0 0 10].

(** Scenario C: [ap_run_create_connection] returns [NULL]. *)
Definition K_no_conn : Collaborators :=
  collaborators APR_SUCCESS true false APR_SUCCESS [].

(** Scenario D: another thread aborts while the pipeline reads. *)
Definition K_aborted : Collaborators :=
  collaborators APR_SUCCESS true true APR_SUCCESS
    [Pull [] 0 0 10; Abort_from_other_thread; Pull [] 0 0 10; Push [1]].

(** [apr_pcalloc] returns [NULL]. *)
Definition K_no_memory : Collaborators :=
  collaborators APR_SUCCESS false true APR_SUCCESS [].

(** [apr_pool_create_ex] fails. *)
Definition K_no_pool : Collaborators :=
  collaborators APR_ENOMEM true true APR_SUCCESS [].

(** [apr_socket_create] fails with status 24. *)
Definition K_no_socket : Collaborators :=
  collaborators APR_SUCCESS true true 24 [Push [1]].




End Scenario.

(** * Properties *)

Ltac unfold_M := unfold bind, ret, call, fault, load in *.

Ltac break_task t :=
  let i := fresh "i" in
  let o := fresh "o" in
  destruct t as [? ? ? ? ? ? ? ? i o]; destruct i, o; simpl in *.

Section Properties.

Context {collab : Collaborators}.

(** ** Frame lemmas *)

Lemma same_frame_refl (t : h2_task) : same_frame t t.
Proof. repeat split. Qed.

Lemma same_frame_trans (t1 t2 t3 : h2_task) :
  same_frame t1 t2 -> same_frame t2 t3 -> same_frame t1 t3.
Proof.
  unfold same_frame; intros H12 H23.
  decompose [and] H12; decompose [and] H23.
  repeat split; congruence.
Qed.

Lemma h2_task_abort_eq (t : h2_task) :
  h2_task_abort t =
    (bridge_teardown t,
     Ok (set_output (set_input (set_aborted t 1) None) None)).
Proof. break_task t; reflexivity. Qed.

Lemma h2_filter_stream_input_ok (t : h2_task) bb mode block n :
  exists evs st bb' t',
    h2_filter_stream_input t bb mode block n = (evs, Ok (st, bb', t')) /\
    same_frame t t' /\ output t' = output t /\ aborted t' = aborted t /\
    resets evs = [] /\ existsb is_process_connection evs = false.
Proof.
  unfold h2_filter_stream_input.
  destruct (input t) as [i|] eqn:Hi.
  - unfold_M; cbn.
    destruct (h2_task_input_read i bb mode block n) as [[st bb'] i'].
    exists [Ev_input_read i], st, bb', (set_input t (Some i')).
    repeat split.
  - exists [], APR_ECONNABORTED, bb, t. repeat split.
Qed.

Lemma h2_filter_stream_output_ok (t : h2_task) bb :
  exists evs st t',
    h2_filter_stream_output t bb = (evs, Ok (st, t')) /\
    same_frame t t' /\ aborted t' = aborted t /\
    resets evs = [] /\ existsb is_process_connection evs = false /\
    (output t = None -> output t' = None) /\
    (forall o, output t = Some o ->
       output t' = Some (snd (h2_task_output_write o bb))).
Proof.
  unfold h2_filter_stream_output.
  destruct (output t) as [o|] eqn:Ho.
  - unfold_M; cbn.
    destruct (h2_task_output_write o bb) as [st o'] eqn:Hw.
    exists [Ev_output_write o bb], st, (set_output t (Some o')).
    repeat split; try discriminate.
    intros o0 E; inversion E; subst. rewrite Hw. reflexivity.
  - exists [], APR_ECONNABORTED, t. repeat split; auto. discriminate.
Qed.

Lemma resets_app (e1 e2 : list event) :
  resets (e1 ++ e2) = resets e1 ++ resets e2.
Proof. unfold resets. apply flat_map_app. Qed.

Lemma resets_bridge_teardown (t : h2_task) : resets (bridge_teardown t) = [].
Proof. break_task t; reflexivity. Qed.

Lemma no_process_connection_teardown (t : h2_task) :
  existsb is_process_connection (bridge_teardown t) = false.
Proof. break_task t; reflexivity. Qed.

(** The pipeline never faults, never resets the stream by itself and
    leaves the frame of the task alone. *)
Lemma run_pipeline_ok (steps : list pipeline_step) :
  forall t : h2_task,
  exists evs sts t',
    run_pipeline steps t = (evs, Ok (sts, t')) /\
    same_frame t t' /\ resets evs = [] /\
    existsb is_process_connection evs = false.
Proof.
  induction steps as [|st rest IH]; intros t.
  - exists [], [], t. repeat split.
  - destruct st as [bb mode block n|bb|]; simpl.
    + destruct (h2_filter_stream_input_ok t bb mode block n)
        as (e1 & s1 & bb' & t1 & E1 & F1 & _ & _ & R1 & P1).
      destruct (IH t1) as (e2 & sts & t2 & E2 & F2 & R2 & P2).
      rewrite E1. unfold_M. cbn. rewrite E2. cbn.
      exists (e1 ++ e2 ++ []), (s1 :: sts), t2.
      repeat split; try apply (same_frame_trans _ _ _ F1 F2).
      * rewrite !resets_app, R1, R2. reflexivity.
      * rewrite !existsb_app, P1, P2. reflexivity.
    + destruct (h2_filter_stream_output_ok t bb)
        as (e1 & s1 & t1 & E1 & F1 & _ & R1 & P1 & _).
      destruct (IH t1) as (e2 & sts & t2 & E2 & F2 & R2 & P2).
      rewrite E1. unfold_M. cbn. rewrite E2. cbn.
      exists (e1 ++ e2 ++ []), (s1 :: sts), t2.
      repeat split; try apply (same_frame_trans _ _ _ F1 F2).
      * rewrite !resets_app, R1, R2. reflexivity.
      * rewrite !existsb_app, P1, P2. reflexivity.
    + rewrite h2_task_abort_eq.
      destruct (IH (set_output (set_input (set_aborted t 1) None) None))
        as (e2 & sts & t2 & E2 & F2 & R2 & P2).
      unfold_M. rewrite E2.
      exists (bridge_teardown t ++ e2), sts, t2.
      repeat split; try apply F2.
      * rewrite resets_app, resets_bridge_teardown, R2. reflexivity.
      * rewrite existsb_app, no_process_connection_teardown, P2.
        reflexivity.
Qed.

(** ** Torn-down bridges *)

Lemma h2_filter_stream_input_null (t : h2_task) bb mode block n :
  input t = None ->
  h2_filter_stream_input t bb mode block n =
    ([], Ok (APR_ECONNABORTED, bb, t)).
Proof. unfold h2_filter_stream_input; intros ->; reflexivity. Qed.

Lemma h2_filter_stream_output_null (t : h2_task) bb :
  output t = None ->
  h2_filter_stream_output t bb = ([], Ok (APR_ECONNABORTED, t)).
Proof. unfold h2_filter_stream_output; intros ->; reflexivity. Qed.

Lemma h2_task_abort_torn_down (t : h2_task) :
  input t = None -> output t = None -> aborted t = 1 ->
  h2_task_abort t = ([], Ok t).
Proof.
  destruct t as [? ? ? ? ? ? ? ? i o]; simpl.
  intros -> -> ->. reflexivity.
Qed.

Lemma run_pipeline_torn_down (steps : list pipeline_step) (t : h2_task) :
  input t = None -> output t = None -> aborted t = 1 ->
  run_pipeline steps t = ([], Ok (all_aborted steps, t)).
Proof.
  intros Hi Ho Ha.
  induction steps as [|st rest IH]; [reflexivity|].
  destruct st as [bb mode block n|bb|]; simpl.
  - rewrite h2_filter_stream_input_null by assumption.
    unfold_M. rewrite IH. reflexivity.
  - rewrite h2_filter_stream_output_null by assumption.
    unfold_M. rewrite IH. reflexivity.
  - rewrite h2_task_abort_torn_down by assumption.
    unfold_M. rewrite IH. reflexivity.
Qed.

(** C3: once [h2_task_abort] has run, and more generally whenever a
    bridge field is null, the input filter and the output filter
    return [APR_ECONNABORTED] at once: no event is emitted, so neither
    [h2_task_input_read] nor [h2_task_output_write] is called, and the
    task and the brigade are handed back untouched.  This holds for
    every later bridge call: any sequence of pipeline steps run on the
    aborted task sees only [APR_ECONNABORTED]. *)
Theorem bridge_calls_after_abort_are_refused (t : h2_task) :
  (forall bb mode block n,
      input t = None ->
      h2_filter_stream_input t bb mode block n =
        ([], Ok (APR_ECONNABORTED, bb, t))) /\
  (forall bb,
      output t = None ->
      h2_filter_stream_output t bb = ([], Ok (APR_ECONNABORTED, t))) /\
  exists t',
    h2_task_abort t = (bridge_teardown t, Ok t') /\
    input t' = None /\ output t' = None /\
    (forall bb mode block n,
        h2_filter_stream_input t' bb mode block n =
          ([], Ok (APR_ECONNABORTED, bb, t'))) /\
    (forall bb,
        h2_filter_stream_output t' bb = ([], Ok (APR_ECONNABORTED, t'))) /\
    (forall steps,
        run_pipeline steps t' = ([], Ok (all_aborted steps, t'))).
Proof.
  split; [|split].
  - intros; now apply h2_filter_stream_input_null.
  - intros; now apply h2_filter_stream_output_null.
  - rewrite h2_task_abort_eq.
    eexists; split; [reflexivity|].
    split; [reflexivity|]. split; [reflexivity|].
    split; [|split]; intros.
    + now apply h2_filter_stream_input_null.
    + now apply h2_filter_stream_output_null.
    + now apply run_pipeline_torn_down.
Qed.

(** ** Abort *)

(** C7: [h2_task_abort] never fails; it sets [aborted], nulls the two
    bridge fields and leaves session id, stream id, running flag,
    multiplexer reference, pool, connection and socket as they were.
    The only calls it makes are the destruction of the bridges the
    task still held. *)
Theorem h2_task_abort_frame (t : h2_task) :
  exists t',
    h2_task_abort t = (bridge_teardown t, Ok t') /\
    forallb is_bridge_destroy (bridge_teardown t) = true /\
    session_id t' = session_id t /\ stream_id t' = stream_id t /\
    running t' = running t /\ mplx t' = mplx t /\ pool t' = pool t /\
    c t' = c t /\ socket t' = socket t /\
    aborted t' = 1 /\ input t' = None /\ output t' = None.
Proof.
  rewrite h2_task_abort_eq. eexists; split; [reflexivity|].
  split; [break_task t; reflexivity|].
  repeat split.
Qed.

Lemma h2_task_abort_idempotent (t : h2_task) :
  exists t',
    h2_task_abort t = (bridge_teardown t, Ok t') /\
    h2_task_abort t' = ([], Ok t').
Proof.
  rewrite h2_task_abort_eq. eexists; split; [reflexivity|].
  now apply h2_task_abort_torn_down.
Qed.

(** ** The running flag *)

Lemma int_of_uint32_of_int (v : Z) :
  - 2 ^ 31 <= v < 2 ^ 31 -> int_of_uint32 (uint32_of_int v) = v.
Proof.
  intros Hv. unfold int_of_uint32, uint32_of_int.
  rewrite Z.add_mod_idemp_l by lia.
  rewrite Z.mod_small by lia. lia.
Qed.

(** C9: for every task and every [int] value [v],
    [h2_task_is_running] after [h2_task_set_running v] returns [v],
    and [h2_task_set_running] changes no field but [running]
    ([h2_task_is_running] is a read: it returns no new task state). *)
Theorem running_round_trip (t : h2_task) (v : Z) :
  - 2 ^ 31 <= v < 2 ^ 31 ->
  h2_task_is_running (h2_task_set_running t v) = v /\
  session_id (h2_task_set_running t v) = session_id t /\
  stream_id (h2_task_set_running t v) = stream_id t /\
  aborted (h2_task_set_running t v) = aborted t /\
  mplx (h2_task_set_running t v) = mplx t /\
  pool (h2_task_set_running t v) = pool t /\
  c (h2_task_set_running t v) = c t /\
  socket (h2_task_set_running t v) = socket t /\
  input (h2_task_set_running t v) = input t /\
  output (h2_task_set_running t v) = output t.
Proof.
  intros Hv. split; [|repeat split].
  unfold h2_task_is_running, h2_task_set_running; simpl.
  now apply int_of_uint32_of_int.
Qed.

(** ** Execution *)

(** The run of [h2_task_do] when the socket is there: the pipeline
    runs on the task, then the stream is reset unless the output
    bridge reports that it has started, then the socket is closed. *)
Lemma h2_task_do_success (t : h2_task) (conn : conn_rec)
    (s : option apr_socket_t) :
  apr_socket_create (pool t) = (APR_SUCCESS, s) ->
  c t = Some conn ->
  exists evs sts t1,
    run_pipeline
      (ap_process_connection_script (ap_set_module_config conn s) s)
      (set_c (set_socket t s) (Some (ap_set_module_config conn s)))
    = (evs, Ok (sts, t1)) /\
    resets evs = [] /\
    h2_task_do t =
      (Ev_process_connection (ap_set_module_config conn s) s :: evs ++
       (if h2_task_output_has_started (output t1) then []
        else [Ev_mplx_out_reset (mplx t) (stream_id t) APR_SUCCESS]) ++
       [Ev_socket_close s],
       Ok (APR_SUCCESS, t1)).
Proof.
  intros Hs Hc.
  destruct (run_pipeline_ok
              (ap_process_connection_script (ap_set_module_config conn s) s)
              (set_c (set_socket t s) (Some (ap_set_module_config conn s))))
    as (evs & sts & t1 & E & F & R & _).
  exists evs, sts, t1. split; [exact E|]. split; [exact R|].
  destruct F as (_ & Fsid & _ & Fm & _ & _ & Fs). simpl in Fsid, Fm, Fs.
  unfold h2_task_do, ap_process_connection. rewrite Hs. simpl.
  rewrite Hc. unfold_M. simpl. rewrite E. simpl.
  rewrite Fsid, Fm, Fs.
  destruct (h2_task_output_has_started (output t1)); simpl;
    rewrite ?app_nil_r, <- ?app_assoc; reflexivity.
Qed.





(** C5: if [apr_socket_create] fails, [h2_task_do] makes one call,
    the reset of the task's stream with that very status, and returns
    that status; [ap_process_connection] is not called (and nothing
    else is). *)
Theorem h2_task_do_socket_failure (t : h2_task) (status : apr_status_t)
    (s : option apr_socket_t) :
  apr_socket_create (pool t) = (status, s) ->
  status <> APR_SUCCESS ->
  h2_task_do t =
    ([Ev_mplx_out_reset (mplx t) (stream_id t) status],
     Ok (status, set_socket t s)) /\
  existsb is_process_connection (fst (h2_task_do t)) = false.
Proof.
  intros Hs Hf.
  assert (E : h2_task_do t =
              ([Ev_mplx_out_reset (mplx t) (stream_id t) status],
               Ok (status, set_socket t s))).
  { unfold h2_task_do. rewrite Hs.
    unfold status_failed.
    destruct (Z.eqb_spec status APR_SUCCESS) as [->|_]; [congruence|].
    reflexivity. }
  split; [exact E|]. rewrite E. reflexivity.
Qed.

(** C10: whenever [apr_socket_create] succeeds, [h2_task_do] returns
    [APR_SUCCESS] whatever the pipeline did, and a reset it issues
    carries the status left over from the socket creation, that is
    [APR_SUCCESS]. *)
Theorem h2_task_do_returns_success (t : h2_task) (conn : conn_rec)
    (s : option apr_socket_t) :
  apr_socket_create (pool t) = (APR_SUCCESS, s) ->
  c t = Some conn ->
  exists evs t',
    h2_task_do t = (evs, Ok (APR_SUCCESS, t')) /\
    forall m sid st, In (m, sid, st) (resets evs) -> st = APR_SUCCESS.
Proof.
  intros Hs Hc.
  destruct (h2_task_do_success t conn s Hs Hc)
    as (evs & sts & t1 & E & R & Hdo).
  eexists; exists t1. split; [exact Hdo|].
  intros m sid st.
  change (resets (?e :: ?l)) with (resets l).
  rewrite !resets_app, R.
  destruct (h2_task_output_has_started (output t1)); simpl.
  - tauto.
  - intros [H|[]]. now inversion H.
Qed.

(** ** Destruction *)

Lemma h2_task_destroy_eq (t : h2_task) :
  h2_task_destroy t =
    (bridge_teardown t ++
     match mplx t with Some m => [Ev_mplx_release m] | None => [] end ++
     match pool t with Some p => [Ev_pool_destroy p] | None => [] end,
     Ok (APR_SUCCESS, set_mplx (set_output (set_input t None) None) None)).
Proof.
  destruct t as [? ? ? ? m p ? ? i o].
  destruct i, o, m, p; reflexivity.
Qed.

(** [h2_task_destroy] never fails and releases the multiplexer at most
    once: a second call finds the bridges and the multiplexer field
    null and skips them. *)
Lemma h2_task_destroy_second_call (t : h2_task) :
  exists evs t1,
    h2_task_destroy t = (evs, Ok (APR_SUCCESS, t1)) /\
    h2_task_destroy t1 =
      (match pool t with Some p => [Ev_pool_destroy p] | None => [] end,
       Ok (APR_SUCCESS, t1)).
Proof.
  rewrite h2_task_destroy_eq. eexists; eexists; split; [reflexivity|].
  rewrite h2_task_destroy_eq. reflexivity.
Qed.

(** C4 (the code departs from it): [h2_task_abort] is idempotent
    ([h2_task_abort_idempotent]) and so is [h2_task_destroy] on the
    bridges and the multiplexer reference, but [h2_task_destroy]
    leaves [task->pool] set after destroying the pool: on a task that
    owns a pool the second call is no no-op, it destroys the same pool
    once more. *)
Theorem h2_task_destroy_twice_destroys_pool_twice (t : h2_task)
    (p : apr_pool_t) :
  pool t = Some p ->
  exists evs t1,
    h2_task_destroy t = (evs, Ok (APR_SUCCESS, t1)) /\
    pool_destroys evs = [p] /\
    h2_task_destroy t1 = ([Ev_pool_destroy p], Ok (APR_SUCCESS, t1)).
Proof.
  intros Hp.
  destruct (h2_task_destroy_second_call t) as (evs & t1 & E1 & E2).
  exists evs, t1. rewrite Hp in E2. repeat split; try assumption.
  rewrite h2_task_destroy_eq in E1. inversion E1; subst.
  rewrite Hp. destruct t as [? ? ? ? m ? ? ? i o].
  destruct i, o, m; reflexivity.
Qed.

(** ** Creation *)

Lemma h2_task_create_pool_failure sid stid master pool0 data eos m :
  fst apr_pool_create_ex <> APR_SUCCESS ->
  h2_task_create sid stid master pool0 data eos m =
    ([Ev_mplx_out_reset m stid (fst apr_pool_create_ex)], Ok None).
Proof.
  intros Hf. unfold h2_task_create. simpl.
  destruct apr_pool_create_ex as [status p]. simpl in Hf.
  unfold status_failed.
  destruct (Z.eqb_spec status APR_SUCCESS) as [->|_]; [congruence|].
  reflexivity.
Qed.

Lemma h2_task_create_alloc_failure sid stid master pool0 data eos m p :
  apr_pool_create_ex = (APR_SUCCESS, p) ->
  apr_pcalloc p = false ->
  h2_task_create sid stid master pool0 data eos m = ([], Fault).
Proof.
  intros Hp Ha. unfold h2_task_create. simpl.
  rewrite Hp. simpl. rewrite Ha. reflexivity.
Qed.

Lemma h2_task_create_conn_failure sid stid master pool0 data eos m p :
  apr_pool_create_ex = (APR_SUCCESS, p) ->
  apr_pcalloc p = true ->
  ap_run_create_connection p (base_server master)
    (ap_get_module_config master) (conn_id master) (sbh master) = None ->
  h2_task_create sid stid master pool0 data eos m =
    ([Ev_mplx_reference m; Ev_mplx_out_reset m stid APR_EGENERAL], Ok None).
Proof.
  intros Hp Ha Hc. unfold h2_task_create, h2_conn_create. simpl.
  rewrite Hp. simpl. rewrite Ha. simpl. rewrite Hc. reflexivity.
Qed.

Lemma h2_task_create_success sid stid master pool0 data eos m p conn :
  apr_pool_create_ex = (APR_SUCCESS, p) ->
  apr_pcalloc p = true ->
  ap_run_create_connection p (base_server master)
    (ap_get_module_config master) (conn_id master) (sbh master)
    = Some conn ->
  h2_task_create sid stid master pool0 data eos m =
    ([Ev_mplx_reference m; Ev_ctx_create_for conn],
     Ok (Some (mk_h2_task sid stid 0 0 m p (Some conn)
                 (ap_get_module_config master)
                 (h2_task_input_create (conn_pool conn) sid stid data eos m)
                 (h2_task_output_create (conn_pool conn) sid stid m)))).
Proof.
  intros Hp Ha Hc. unfold h2_task_create, h2_conn_create. simpl.
  rewrite Hp. simpl. rewrite Ha. simpl. rewrite Hc. reflexivity.
Qed.

(** Every outcome of [h2_task_create] is one of the four above. *)
Lemma h2_task_create_cases sid stid master pool0 data eos m :
  let r := h2_task_create sid stid master pool0 data eos m in
  r = ([Ev_mplx_out_reset m stid (fst apr_pool_create_ex)], Ok None) \/
  r = ([], Fault) \/
  r = ([Ev_mplx_reference m; Ev_mplx_out_reset m stid APR_EGENERAL],
       Ok None) \/
  exists conn t,
    r = ([Ev_mplx_reference m; Ev_ctx_create_for conn], Ok (Some t)) /\
    fst apr_pool_create_ex = APR_SUCCESS /\
    pool t = snd apr_pool_create_ex /\ mplx t = m /\ c t = Some conn /\
    session_id t = sid /\ stream_id t = stid.
Proof.
  intros r. subst r.
  destruct apr_pool_create_ex as [status p] eqn:Hp.
  destruct (Z.eq_dec status APR_SUCCESS) as [->|Hne].
  - destruct (apr_pcalloc p) eqn:Ha.
    + destruct (ap_run_create_connection p (base_server master)
                  (ap_get_module_config master) (conn_id master)
                  (sbh master)) as [conn|] eqn:Hc.
      * right; right; right. eexists; eexists. split.
        -- eapply h2_task_create_success; eassumption.
        -- repeat split.
      * right; right; left.
        eapply h2_task_create_conn_failure; eassumption.
    + right; left. eapply h2_task_create_alloc_failure; eassumption.
  - left. change status with (fst (status, p)). rewrite <- Hp.
    apply h2_task_create_pool_failure. rewrite Hp. exact Hne.
Qed.

(** C1 (the code departs from it): when [apr_pcalloc] returns
    [NULL], [h2_task_create] reads the stream id through that null
    task pointer ([task->stream_id]) to build the reset call.  It
    faults there: no reset reaches the multiplexer and nothing is
    returned.  The two other failures behave as claimed
    ([h2_task_create_pool_failure], [h2_task_create_conn_failure]). *)
Theorem h2_task_create_alloc_failure_faults
    sid stid master pool0 data eos m p :
  apr_pool_create_ex = (APR_SUCCESS, p) ->
  apr_pcalloc p = false ->
  h2_task_create sid stid master pool0 data eos m = ([], Fault) /\
  resets (fst (h2_task_create sid stid master pool0 data eos m)) = [].
Proof.
  intros Hp Ha.
  rewrite (h2_task_create_alloc_failure _ _ _ _ _ _ _ _ Hp Ha).
  split; reflexivity.
Qed.

(** ** The multiplexer reference *)

(** On a created task the reference taken at creation is given back
    by the first [h2_task_destroy] and by no later one. *)
Lemma h2_task_destroy_releases (t : h2_task) :
  exists evs t1 evs2,
    h2_task_destroy t = (evs, Ok (APR_SUCCESS, t1)) /\
    releases evs = match mplx t with Some m => [m] | None => [] end /\
    h2_task_destroy t1 = (evs2, Ok (APR_SUCCESS, t1)) /\
    releases evs2 = [].
Proof.
  destruct (h2_task_destroy_second_call t) as (evs & t1 & E1 & E2).
  exists evs, t1. eexists. split; [exact E1|].
  split; [|split; [exact E2|]].
  - rewrite h2_task_destroy_eq in E1. inversion E1; subst.
    destruct t as [? ? ? ? m p ? ? i o].
    destruct i, o, m, p; reflexivity.
  - destruct (pool t); reflexivity.
Qed.

(** C6 (the code departs from it): when [ap_run_create_connection]
    fails, [h2_task_create] has already called [h2_mplx_reference];
    it resets the stream and returns [NULL] without a call to
    [h2_mplx_release].  No task is handed out on which
    [h2_task_destroy] could run, so this reference is never given
    back.  On the paths where a task is returned the reference is
    released exactly once ([h2_task_destroy_releases]). *)
Theorem h2_task_create_conn_failure_leaks_reference
    sid stid master pool0 data eos m p :
  apr_pool_create_ex = (APR_SUCCESS, p) ->
  apr_pcalloc p = true ->
  ap_run_create_connection p (base_server master)
    (ap_get_module_config master) (conn_id master) (sbh master) = None ->
  exists evs,
    h2_task_create sid stid master pool0 data eos m = (evs, Ok None) /\
    references evs = [m] /\ releases evs = [].
Proof.
  intros Hp Ha Hc.
  rewrite (h2_task_create_conn_failure _ _ _ _ _ _ _ _ Hp Ha Hc).
  eexists; split; [reflexivity|]. split; reflexivity.
Qed.

(** C8: whatever pool is handed to [h2_task_create], null or not, it
    plays no part: the outcome is the same for any two values.  The
    function always asks [apr_pool_create_ex] for a pool of its own:
    if that fails, creation fails with a reset, even when a pool was
    passed in; if it succeeds, the task is allocated from the new pool,
    its connection is created on the new pool and, when these succeed,
    the task is returned with the new pool as its pool.  No returned
    task has any other pool. *)
Theorem h2_task_create_owns_fresh_pool
    sid stid master (pool1 pool2 : option apr_pool_t) data eos m :
  h2_task_create sid stid master pool1 data eos m =
    h2_task_create sid stid master pool2 data eos m /\
  (fst apr_pool_create_ex <> APR_SUCCESS ->
   h2_task_create sid stid master pool1 data eos m =
     ([Ev_mplx_out_reset m stid (fst apr_pool_create_ex)], Ok None)) /\
  (forall p conn,
      apr_pool_create_ex = (APR_SUCCESS, p) ->
      apr_pcalloc p = true ->
      ap_run_create_connection p (base_server master)
        (ap_get_module_config master) (conn_id master) (sbh master)
        = Some conn ->
      exists evs t,
        h2_task_create sid stid master pool1 data eos m
          = (evs, Ok (Some t)) /\
        pool t = p /\ c t = Some conn) /\
  (forall evs t,
      h2_task_create sid stid master pool1 data eos m = (evs, Ok (Some t)) ->
      fst apr_pool_create_ex = APR_SUCCESS /\
      pool t = snd apr_pool_create_ex).
Proof.
  split; [reflexivity|].
  split; [apply h2_task_create_pool_failure|].
  split.
  - intros p conn Hp Ha Hc.
    rewrite (h2_task_create_success sid stid master pool1 data eos m p conn
               Hp Ha Hc).
    eexists; eexists. split; [reflexivity|]. split; reflexivity.
  - intros evs t E.
    destruct (h2_task_create_cases sid stid master pool1 data eos m)
      as [H|[H|[H|(conn & t0 & H & Hs & Hp & _)]]];
      rewrite H in E; try discriminate E.
    inversion E; subst. split; assumption.
Qed.

End Properties.

(** * Further properties of the task operations *)

Section Lifecycle.

Context {collab : Collaborators}.

(** ** What the pipeline emits *)

Lemma bridge_events_only (evs : list event) :
  forallb is_bridge_event evs = true ->
  resets evs = [] /\ references evs = [] /\ releases evs = [] /\
  pool_destroys evs = [] /\
  existsb is_process_connection evs = false /\
  existsb is_socket_close evs = false.
Proof.
  induction evs as [|e rest IH]; simpl; intros H.
  - repeat split.
  - apply andb_true_iff in H. destruct H as [He Hr].
    destruct (IH Hr) as (R1 & R2 & R3 & R4 & R5 & R6).
    unfold resets, references, releases, pool_destroys in *.
    destruct e; simpl in *; try discriminate He;
      rewrite ?R1, ?R2, ?R3, ?R4, ?R5, ?R6; repeat split.
Qed.

Lemma bridge_teardown_bridge_events (t : h2_task) :
  forallb is_bridge_event (bridge_teardown t) = true.
Proof. break_task t; reflexivity. Qed.

Lemma h2_filter_stream_input_events (t : h2_task) bb mode block n :
  forallb is_bridge_event
    (fst (h2_filter_stream_input t bb mode block n)) = true.
Proof.
  unfold h2_filter_stream_input.
  destruct (input t) as [i|]; [|reflexivity].
  unfold_M; cbn.
  destruct (h2_task_input_read i bb mode block n) as [[st bb'] i'].
  reflexivity.
Qed.

Lemma h2_filter_stream_output_events (t : h2_task) bb :
  forallb is_bridge_event (fst (h2_filter_stream_output t bb)) = true.
Proof.
  unfold h2_filter_stream_output.
  destruct (output t) as [o|]; [|reflexivity].
  unfold_M; cbn.
  destruct (h2_task_output_write o bb) as [st o'].
  reflexivity.
Qed.

(** One step of the pipeline, then the rest. *)
Lemma run_pipeline_pull (t : h2_task) bb mode block n rest e1 s1 bb' t1
    e2 sts t2 :
  h2_filter_stream_input t bb mode block n = (e1, Ok (s1, bb', t1)) ->
  run_pipeline rest t1 = (e2, Ok (sts, t2)) ->
  run_pipeline (Pull bb mode block n :: rest) t =
    (e1 ++ e2, Ok (s1 :: sts, t2)).
Proof.
  intros E1 E2. simpl. rewrite E1. unfold_M. cbn. rewrite E2. cbn.
  rewrite app_nil_r. reflexivity.
Qed.

Lemma run_pipeline_push (t : h2_task) bb rest e1 s1 t1 e2 sts t2 :
  h2_filter_stream_output t bb = (e1, Ok (s1, t1)) ->
  run_pipeline rest t1 = (e2, Ok (sts, t2)) ->
  run_pipeline (Push bb :: rest) t = (e1 ++ e2, Ok (s1 :: sts, t2)).
Proof.
  intros E1 E2. simpl. rewrite E1. unfold_M. cbn. rewrite E2. cbn.
  rewrite app_nil_r. reflexivity.
Qed.

Lemma run_pipeline_abort (t : h2_task) rest e2 sts t2 :
  run_pipeline rest (set_output (set_input (set_aborted t 1) None) None)
    = (e2, Ok (sts, t2)) ->
  run_pipeline (Abort_from_other_thread :: rest) t =
    (bridge_teardown t ++ e2, Ok (sts, t2)).
Proof.
  intros E2. simpl. rewrite h2_task_abort_eq. unfold_M. rewrite E2.
  reflexivity.
Qed.

(** The pipeline in full: it always returns, emits bridge events only,
    keeps the frame of the task, and leaves [aborted] at 1 when an abort
    came in and as it was otherwise. *)
Lemma run_pipeline_spec (steps : list pipeline_step) :
  forall t : h2_task,
  exists evs sts t',
    run_pipeline steps t = (evs, Ok (sts, t')) /\
    same_frame t t' /\
    forallb is_bridge_event evs = true /\
    aborted t' = (if existsb is_abort steps then 1 else aborted t) /\
    (existsb is_abort steps = true -> input t' = None /\ output t' = None).
Proof.
  induction steps as [|st rest IH]; intros t.
  - exists [], [], t. repeat split; discriminate.
  - destruct st as [bb mode block n|bb|].
    + destruct (h2_filter_stream_input_ok t bb mode block n)
        as (e1 & s1 & bb' & t1 & E1 & F1 & _ & A1 & _).
      destruct (IH t1) as (e2 & sts & t2 & E2 & F2 & B2 & A2 & N2).
      exists (e1 ++ e2), (s1 :: sts), t2.
      split; [eapply run_pipeline_pull; eassumption|].
      split; [apply (same_frame_trans _ _ _ F1 F2)|].
      split; [|split].
      * rewrite forallb_app, B2, andb_true_r.
        pose proof (h2_filter_stream_input_events t bb mode block n) as H.
        rewrite E1 in H. exact H.
      * simpl. rewrite A2, A1. reflexivity.
      * exact N2.
    + destruct (h2_filter_stream_output_ok t bb)
        as (e1 & s1 & t1 & E1 & F1 & A1 & _).
      destruct (IH t1) as (e2 & sts & t2 & E2 & F2 & B2 & A2 & N2).
      exists (e1 ++ e2), (s1 :: sts), t2.
      split; [eapply run_pipeline_push; eassumption|].
      split; [apply (same_frame_trans _ _ _ F1 F2)|].
      split; [|split].
      * rewrite forallb_app, B2, andb_true_r.
        pose proof (h2_filter_stream_output_events t bb) as H.
        rewrite E1 in H. exact H.
      * simpl. rewrite A2, A1. reflexivity.
      * exact N2.
    + pose (t0 := set_output (set_input (set_aborted t 1) None) None).
      assert (E2 : run_pipeline rest t0 = ([], Ok (all_aborted rest, t0))).
      { apply run_pipeline_torn_down; reflexivity. }
      exists (bridge_teardown t ++ []), (all_aborted rest), t0.
      split; [apply run_pipeline_abort; exact E2|].
      split; [repeat split|].
      split; [|split].
      * rewrite app_nil_r. apply bridge_teardown_bridge_events.
      * reflexivity.
      * intros _. split; reflexivity.
Qed.

(** Running two scripts one after the other is running their
    concatenation. *)
Lemma run_pipeline_app (pre : list pipeline_step) :
  forall (post : list pipeline_step) (t : h2_task) e1 s1 t1 e2 s2 t2,
    run_pipeline pre t = (e1, Ok (s1, t1)) ->
    run_pipeline post t1 = (e2, Ok (s2, t2)) ->
    run_pipeline (pre ++ post) t = (e1 ++ e2, Ok (s1 ++ s2, t2)).
Proof.
  induction pre as [|st rest IH]; intros post t e1 s1 t1 e2 s2 t2 E1 E2.
  - simpl in E1. inversion E1; subst. exact E2.
  - destruct st as [bb mode block n|bb|].
    + destruct (h2_filter_stream_input_ok t bb mode block n)
        as (ea & sa & bb' & ta & Ea & _).
      destruct (run_pipeline_ok rest ta) as (eb & sb & tb & Eb & _).
      rewrite (run_pipeline_pull _ _ _ _ _ _ _ _ _ _ _ _ _ Ea Eb) in E1.
      inversion E1; subst.
      rewrite <- app_assoc. simpl.
      eapply run_pipeline_pull; [exact Ea|].
      eapply IH; eassumption.
    + destruct (h2_filter_stream_output_ok t bb)
        as (ea & sa & ta & Ea & _).
      destruct (run_pipeline_ok rest ta) as (eb & sb & tb & Eb & _).
      rewrite (run_pipeline_push _ _ _ _ _ _ _ _ _ Ea Eb) in E1.
      inversion E1; subst.
      rewrite <- app_assoc. simpl.
      eapply run_pipeline_push; [exact Ea|].
      eapply IH; eassumption.
    + destruct (run_pipeline_ok rest
                  (set_output (set_input (set_aborted t 1) None) None))
        as (eb & sb & tb & Eb & _).
      rewrite (run_pipeline_abort _ _ _ _ _ Eb) in E1.
      inversion E1; subst.
      rewrite <- app_assoc. simpl.
      apply run_pipeline_abort.
      eapply IH; eassumption.
Qed.

Lemma references_app (e1 e2 : list event) :
  references (e1 ++ e2) = references e1 ++ references e2.
Proof. unfold references. apply flat_map_app. Qed.

Lemma releases_app (e1 e2 : list event) :
  releases (e1 ++ e2) = releases e1 ++ releases e2.
Proof. unfold releases. apply flat_map_app. Qed.

Lemma pool_destroys_app (e1 e2 : list event) :
  pool_destroys (e1 ++ e2) = pool_destroys e1 ++ pool_destroys e2.
Proof. unfold pool_destroys. apply flat_map_app. Qed.

(** X9: a pipeline run always returns, and the [aborted] flag is never
    cleared by it: afterwards the flag is 1 if another thread aborted
    during the run (and then both bridge fields are null), and what it
    was before otherwise. *)
Theorem run_pipeline_aborted_flag (steps : list pipeline_step)
    (t : h2_task) :
  exists evs sts t',
    run_pipeline steps t = (evs, Ok (sts, t')) /\
    aborted t' = (if existsb is_abort steps then 1 else aborted t) /\
    (existsb is_abort steps = true -> input t' = None /\ output t' = None).
Proof.
  destruct (run_pipeline_spec steps t) as (evs & sts & t' & E & _ & _ & A & N).
  exists evs, sts, t'. repeat split; try assumption; now apply N.
Qed.

(** X10: whatever the pipeline does and whenever another thread aborts,
    the filters and the abort only ever call the bridges: during
    [ap_process_connection] the task resets no stream, takes or gives
    back no multiplexer reference, destroys no pool, closes no socket,
    and its identity, running flag, multiplexer, pool, connection and
    socket fields stay as they were. *)
Theorem run_pipeline_touches_bridges_only (steps : list pipeline_step)
    (t : h2_task) :
  exists evs sts t',
    run_pipeline steps t = (evs, Ok (sts, t')) /\
    forallb is_bridge_event evs = true /\
    resets evs = [] /\ references evs = [] /\ releases evs = [] /\
    pool_destroys evs = [] /\ existsb is_socket_close evs = false /\
    session_id t' = session_id t /\ stream_id t' = stream_id t /\
    running t' = running t /\ mplx t' = mplx t /\ pool t' = pool t /\
    c t' = c t /\ socket t' = socket t.
Proof.
  destruct (run_pipeline_spec steps t) as (evs & sts & t' & E & F & B & _).
  destruct (bridge_events_only evs B) as (R1 & R2 & R3 & R4 & _ & R6).
  exists evs, sts, t'.
  split; [exact E|]. split; [exact B|].
  split; [exact R1|]. split; [exact R2|]. split; [exact R3|].
  split; [exact R4|]. split; [exact R6|]. exact F.
Qed.

(** X8: when another thread aborts in the middle of a pipeline run, the
    run up to that point is unaffected, the abort tears down the bridges
    the task then holds, and every bridge call after it is answered
    [APR_ECONNABORTED] without any further event. *)
Theorem run_pipeline_abort_midway (pre post : list pipeline_step)
    (t : h2_task) :
  exists e1 s1 t1 t2,
    run_pipeline pre t = (e1, Ok (s1, t1)) /\
    run_pipeline (pre ++ Abort_from_other_thread :: post) t =
      (e1 ++ bridge_teardown t1, Ok (s1 ++ all_aborted post, t2)) /\
    (forall st, In st (all_aborted post) -> st = APR_ECONNABORTED) /\
    existsb is_bridge_io (bridge_teardown t1) = false /\
    aborted t2 = 1 /\ input t2 = None /\ output t2 = None.
Proof.
  destruct (run_pipeline_ok pre t) as (e1 & s1 & t1 & E1 & _).
  pose (t2 := set_output (set_input (set_aborted t1 1) None) None).
  assert (E2 : run_pipeline (Abort_from_other_thread :: post) t1 =
               (bridge_teardown t1 ++ [], Ok (all_aborted post, t2))).
  { apply run_pipeline_abort. apply run_pipeline_torn_down; reflexivity. }
  rewrite app_nil_r in E2.
  exists e1, s1, t1, t2.
  split; [exact E1|].
  split; [eapply run_pipeline_app; eassumption|].
  split; [|split; [|repeat split]].
  - clear. induction post as [|st rest IH]; simpl; [tauto|].
    destruct st; simpl; intros x Hx; auto; destruct Hx; auto.
  - clear. break_task t1; reflexivity.
Qed.

(** ** Connection set-up and creation *)

(** X1: [h2_conn_create] takes the socket from the core slot of the
    master connection, asks for a connection on the task's own pool
    with the master's server, id and scoreboard handle, and returns
    [APR_SUCCESS] exactly when it got one and [APR_EGENERAL] when it got
    none.  It assigns [socket] and [c] and nothing else. *)
Theorem h2_conn_create_outcome (t : h2_task) (master : conn_rec) :
  exists st t',
    h2_conn_create t master = (st, t') /\
    socket t' = ap_get_module_config master /\
    c t' = ap_run_create_connection (pool t) (base_server master)
             (ap_get_module_config master) (conn_id master) (sbh master) /\
    (st = APR_SUCCESS /\ c t' <> None \/ st = APR_EGENERAL /\ c t' = None) /\
    session_id t' = session_id t /\ stream_id t' = stream_id t /\
    aborted t' = aborted t /\ running t' = running t /\
    mplx t' = mplx t /\ pool t' = pool t /\
    input t' = input t /\ output t' = output t.
Proof.
  unfold h2_conn_create. simpl.
  destruct (ap_run_create_connection (pool t) (base_server master)
              (ap_get_module_config master) (conn_id master) (sbh master))
    as [conn|] eqn:Hc.
  - eexists; eexists; split; [reflexivity|]. simpl.
    repeat split; auto. left; split; [reflexivity|discriminate].
  - eexists; eexists; split; [reflexivity|]. simpl.
    repeat split; auto.
Qed.

(** The four ways [h2_task_create] can go, told apart by what the
    collaborators answer. *)
Lemma h2_task_create_analysis sid stid master pool0 data eos m :
  (fst apr_pool_create_ex <> APR_SUCCESS /\
   h2_task_create sid stid master pool0 data eos m =
     ([Ev_mplx_out_reset m stid (fst apr_pool_create_ex)], Ok None)) \/
  (h2_task_create sid stid master pool0 data eos m = ([], Fault)) \/
  (h2_task_create sid stid master pool0 data eos m =
     ([Ev_mplx_reference m; Ev_mplx_out_reset m stid APR_EGENERAL],
      Ok None)) \/
  (exists conn,
     h2_task_create sid stid master pool0 data eos m =
       ([Ev_mplx_reference m; Ev_ctx_create_for conn],
        Ok (Some (mk_h2_task sid stid 0 0 m (snd apr_pool_create_ex)
                    (Some conn) (ap_get_module_config master)
                    (h2_task_input_create (conn_pool conn) sid stid data
                       eos m)
                    (h2_task_output_create (conn_pool conn) sid stid m))))).
Proof.
  destruct apr_pool_create_ex as [status p] eqn:Hp.
  destruct (Z.eq_dec status APR_SUCCESS) as [->|Hne].
  - destruct (apr_pcalloc p) eqn:Ha.
    + destruct (ap_run_create_connection p (base_server master)
                  (ap_get_module_config master) (conn_id master)
                  (sbh master)) as [conn|] eqn:Hc.
      * right; right; right. exists conn.
        eapply h2_task_create_success; eassumption.
      * right; right; left.
        eapply h2_task_create_conn_failure; eassumption.
    + right; left. eapply h2_task_create_alloc_failure; eassumption.
  - left. split; [exact Hne|].
    change status with (fst (status, p)). rewrite <- Hp.
    apply h2_task_create_pool_failure. rewrite Hp. exact Hne.
Qed.

(** X2: a task that [h2_task_create] returns reports the session id
    and the stream id it was created with, is neither aborted nor
    running, holds the multiplexer it was given, the master's core
    socket and a connection, and its two bridges are the ones created
    on that connection's pool.  The only calls made on the way are the
    multiplexer reference and the registration of the task with the
    connection, in this order. *)
Theorem h2_task_create_returns_initialised_task
    sid stid master pool0 data eos m evs (t : h2_task) :
  h2_task_create sid stid master pool0 data eos m = (evs, Ok (Some t)) ->
  h2_task_get_session_id t = sid /\ h2_task_get_stream_id t = stid /\
  aborted t = 0 /\ h2_task_is_running t = 0 /\ mplx t = m /\
  socket t = ap_get_module_config master /\
  exists conn,
    c t = Some conn /\
    evs = [Ev_mplx_reference m; Ev_ctx_create_for conn] /\
    input t = h2_task_input_create (conn_pool conn) sid stid data eos m /\
    output t = h2_task_output_create (conn_pool conn) sid stid m.
Proof.
  intros E.
  destruct (h2_task_create_analysis sid stid master pool0 data eos m)
    as [[_ H]|[H|[H|[conn H]]]]; rewrite H in E; try discriminate E.
  inversion E; subst. repeat split. exists conn. repeat split.
Qed.

(** X3: [h2_task_create] returns [NULL] exactly when it has reset the
    stream: a returned task comes with no reset; a [NULL] return comes
    with one reset, on the multiplexer and stream id passed in and with
    a status other than [APR_SUCCESS]; and when it faults it has called
    nobody. *)
Theorem h2_task_create_reset_iff_null sid stid master pool0 data eos m :
  match h2_task_create sid stid master pool0 data eos m with
  | (evs, Ok (Some _)) => resets evs = []
  | (evs, Ok None) =>
      exists st, resets evs = [(m, stid, st)] /\ st <> APR_SUCCESS
  | (evs, Fault) => evs = []
  end.
Proof.
  destruct (h2_task_create_analysis sid stid master pool0 data eos m)
    as [[Hne H]|[H|[H|[conn H]]]]; rewrite H.
  - exists (fst apr_pool_create_ex). split; [reflexivity|exact Hne].
  - reflexivity.
  - exists APR_EGENERAL. split; [reflexivity|discriminate].
  - reflexivity.
Qed.

(** ** Execution *)

Lemma h2_task_do_failure (t : h2_task) status s :
  apr_socket_create (pool t) = (status, s) ->
  status <> APR_SUCCESS ->
  h2_task_do t =
    ([Ev_mplx_out_reset (mplx t) (stream_id t) status],
     Ok (status, set_socket t s)).
Proof.
  intros Hs Hf. unfold h2_task_do. rewrite Hs. unfold status_failed.
  destruct (Z.eqb_spec status APR_SUCCESS) as [->|_]; [congruence|].
  reflexivity.
Qed.

Lemma h2_task_do_no_conn (t : h2_task) s :
  apr_socket_create (pool t) = (APR_SUCCESS, s) ->
  c t = None ->
  h2_task_do t = ([], Fault).
Proof.
  intros Hs Hc. unfold h2_task_do. rewrite Hs. simpl. rewrite Hc.
  reflexivity.
Qed.

(** The run of [h2_task_do] with the socket there, with all that
    [run_pipeline_spec] knows about the pipeline part. *)
Lemma h2_task_do_success_spec (t : h2_task) (conn : conn_rec)
    (s : option apr_socket_t) :
  apr_socket_create (pool t) = (APR_SUCCESS, s) ->
  c t = Some conn ->
  exists evs sts t1,
    run_pipeline
      (ap_process_connection_script (ap_set_module_config conn s) s)
      (set_c (set_socket t s) (Some (ap_set_module_config conn s)))
    = (evs, Ok (sts, t1)) /\
    same_frame (set_c (set_socket t s) (Some (ap_set_module_config conn s)))
               t1 /\
    forallb is_bridge_event evs = true /\
    (aborted t1 = aborted t \/ aborted t1 = 1) /\
    h2_task_do t =
      (Ev_process_connection (ap_set_module_config conn s) s :: evs ++
       (if h2_task_output_has_started (output t1) then []
        else [Ev_mplx_out_reset (mplx t) (stream_id t) APR_SUCCESS]) ++
       [Ev_socket_close s],
       Ok (APR_SUCCESS, t1)).
Proof.
  intros Hs Hc.
  destruct (h2_task_do_success t conn s Hs Hc)
    as (evs & sts & t1 & E & _ & Hdo).
  destruct (run_pipeline_spec
              (ap_process_connection_script (ap_set_module_config conn s) s)
              (set_c (set_socket t s) (Some (ap_set_module_config conn s))))
    as (evs' & sts' & t1' & E' & F & B & A & _).
  rewrite E in E'. inversion E'; subst.
  exists evs', sts', t1'. repeat split; try assumption; try apply F.
  rewrite A. simpl.
  destruct (existsb is_abort _); [right|left]; reflexivity.
Qed.

(** X4: [h2_task_do] never resets the stream twice.  In every run, be it
    a socket failure, a silent pipeline or a fault, at most one reset is
    made, and it names the task's own multiplexer and stream id. *)
Theorem h2_task_do_resets_at_most_once (t : h2_task) :
  (length (resets (fst (h2_task_do t))) <= 1)%nat /\
  forall m sid st,
    In (m, sid, st) (resets (fst (h2_task_do t))) ->
    m = mplx t /\ sid = stream_id t.
Proof.
  destruct (apr_socket_create (pool t)) as [status s] eqn:Hs.
  destruct (Z.eq_dec status APR_SUCCESS) as [->|Hne].
  - destruct (c t) as [conn|] eqn:Hc.
    + destruct (h2_task_do_success_spec t conn s Hs Hc)
        as (evs & sts & t1 & _ & _ & B & _ & Hdo).
      destruct (bridge_events_only evs B) as (R & _).
      rewrite Hdo. cbn [fst].
      change (resets (?e :: ?l)) with (resets l).
      rewrite !resets_app, R.
      destruct (h2_task_output_has_started (output t1)); simpl.
      * split; [lia|tauto].
      * split; [lia|]. intros m sid st [H|[]]. inversion H; auto.
    + rewrite (h2_task_do_no_conn t s Hs Hc). simpl. split; [lia|tauto].
  - rewrite (h2_task_do_failure t status s Hs Hne). simpl.
    split; [lia|]. intros m sid st [H|[]]. inversion H; auto.
Qed.

(** X5: when the socket is there, [h2_task_do] first stores it in the
    core slot of the task's connection and hands that connection and
    the socket to [ap_process_connection], which it calls exactly once;
    the last thing it does is to close that socket, which it closes
    exactly once.  The task keeps the updated connection and the
    socket. *)
Theorem h2_task_do_runs_pipeline_once (t : h2_task) (conn : conn_rec)
    (s : option apr_socket_t) :
  apr_socket_create (pool t) = (APR_SUCCESS, s) ->
  c t = Some conn ->
  exists evs t',
    h2_task_do t =
      (Ev_process_connection (ap_set_module_config conn s) s :: evs ++
       [Ev_socket_close s], Ok (APR_SUCCESS, t')) /\
    conn_config (ap_set_module_config conn s) = s /\
    existsb is_process_connection evs = false /\
    existsb is_socket_close evs = false /\
    c t' = Some (ap_set_module_config conn s) /\ socket t' = s.
Proof.
  intros Hs Hc.
  destruct (h2_task_do_success_spec t conn s Hs Hc)
    as (evs & sts & t1 & _ & F & B & _ & Hdo).
  destruct (bridge_events_only evs B) as (_ & _ & _ & _ & P & S).
  destruct F as (_ & _ & _ & _ & _ & Fc & Fs). simpl in Fc, Fs.
  exists (evs ++
          (if h2_task_output_has_started (output t1) then []
           else [Ev_mplx_out_reset (mplx t) (stream_id t) APR_SUCCESS])), t1.
  split; [rewrite Hdo, <- app_assoc; reflexivity|].
  split; [reflexivity|].
  rewrite !existsb_app, P, S.
  destruct (h2_task_output_has_started (output t1)); repeat split; auto.
Qed.

(** X6: whenever [h2_task_do] returns, the status it returns is the one
    [apr_socket_create] gave, the task's socket is the one that call
    stored, and session id, stream id, running flag, multiplexer and
    pool of the task are untouched; the [aborted] flag is as before or
    has been set, never cleared. *)
Theorem h2_task_do_frame (t : h2_task) evs st (t' : h2_task) :
  h2_task_do t = (evs, Ok (st, t')) ->
  st = fst (apr_socket_create (pool t)) /\
  socket t' = snd (apr_socket_create (pool t)) /\
  session_id t' = session_id t /\ stream_id t' = stream_id t /\
  running t' = running t /\ mplx t' = mplx t /\ pool t' = pool t /\
  (aborted t' = aborted t \/ aborted t' = 1).
Proof.
  intros E.
  destruct (apr_socket_create (pool t)) as [status s] eqn:Hs.
  destruct (Z.eq_dec status APR_SUCCESS) as [->|Hne].
  - destruct (c t) as [conn|] eqn:Hc.
    + destruct (h2_task_do_success_spec t conn s Hs Hc)
        as (evs1 & sts & t1 & _ & F & _ & A & Hdo).
      rewrite Hdo in E. inversion E; subst.
      destruct F as (F1 & F2 & F3 & F4 & F5 & _ & F7). simpl in *.
      repeat split; assumption.
    + rewrite (h2_task_do_no_conn t s Hs Hc) in E. discriminate E.
  - rewrite (h2_task_do_failure t status s Hs Hne) in E.
    inversion E; subst. simpl. repeat split. left; reflexivity.
Qed.

(** X11: running a task that was aborted beforehand.  With the socket
    there, [h2_task_do] still calls [ap_process_connection] and closes
    the socket, but whatever the pipeline tries, no bridge is called:
    the events are the pipeline call, the reset unless
    [h2_task_output_has_started] answers yes for the null bridge, and
    the socket close. *)
Theorem h2_task_do_after_abort (t : h2_task) (conn : conn_rec)
    (s : option apr_socket_t) :
  apr_socket_create (pool t) = (APR_SUCCESS, s) ->
  c t = Some conn ->
  exists t1 t2,
    h2_task_abort t = (bridge_teardown t, Ok t1) /\
    h2_task_do t1 =
      (Ev_process_connection (ap_set_module_config conn s) s ::
       (if h2_task_output_has_started None then []
        else [Ev_mplx_out_reset (mplx t) (stream_id t) APR_SUCCESS]) ++
       [Ev_socket_close s],
       Ok (APR_SUCCESS, t2)) /\
    aborted t2 = 1 /\ input t2 = None /\ output t2 = None.
Proof.
  intros Hs Hc.
  pose (t1 := set_output (set_input (set_aborted t 1) None) None).
  pose (t2 := set_c (set_socket t1 s) (Some (ap_set_module_config conn s))).
  exists t1, t2. split; [apply h2_task_abort_eq|].
  split; [|repeat split].
  destruct (h2_task_do_success t1 conn s Hs Hc)
    as (evs & sts & t3 & E & _ & Hdo).
  change (set_c (set_socket t1 s) (Some (ap_set_module_config conn s)))
    with t2 in E.
  rewrite (run_pipeline_torn_down _ t2) in E by reflexivity.
  inversion E; subst evs sts t3.
  exact Hdo.
Qed.

(** ** Destruction and the whole life of a task *)

(** X13: [h2_task_destroy] always returns [APR_SUCCESS].  Afterwards
    the bridge fields and the multiplexer field are null while the pool
    field and the rest of the task are as before; it resets no stream;
    and when the task has a pool, destroying it is the last call made,
    after the bridges and the multiplexer were let go, and it is made
    once. *)
Theorem h2_task_destroy_postcondition (t : h2_task) :
  exists evs t',
    h2_task_destroy t = (evs, Ok (APR_SUCCESS, t')) /\
    input t' = None /\ output t' = None /\ mplx t' = None /\
    pool t' = pool t /\ session_id t' = session_id t /\
    stream_id t' = stream_id t /\ aborted t' = aborted t /\
    running t' = running t /\ c t' = c t /\ socket t' = socket t /\
    resets evs = [] /\
    (forall p, pool t = Some p ->
       exists evs0, evs = evs0 ++ [Ev_pool_destroy p] /\
                    pool_destroys evs0 = []) /\
    (pool t = None -> pool_destroys evs = []).
Proof.
  rewrite h2_task_destroy_eq.
  eexists; eexists; split; [reflexivity|]. simpl.
  do 10 (split; [reflexivity|]).
  destruct t as [? ? ? ? m p ? ? i o]; simpl.
  split; [destruct i, o, m, p; reflexivity|].
  split.
  - intros p0 ->.
    exists (bridge_teardown (mk_h2_task session_id0 stream_id0 aborted0
                               running0 m (Some p0) c0 socket0 i o) ++
            match m with Some m0 => [Ev_mplx_release m0] | None => [] end).
    split; [rewrite <- app_assoc; reflexivity|].
    destruct i, o, m; reflexivity.
  - intros ->. destruct i, o, m; reflexivity.
Qed.

(** X7: abort and then destroy.  [h2_task_destroy] on an aborted task
    calls no bridge again, so each bridge the task held is destroyed
    once, by the abort; the calls of abort followed by destroy are, in
    order, the calls of a destroy without abort, and the task ends in
    the same state but for the [aborted] flag. *)
Theorem h2_task_abort_then_destroy (t : h2_task) :
  exists t1 evs2 t2 t3,
    h2_task_abort t = (bridge_teardown t, Ok t1) /\
    h2_task_destroy t1 = (evs2, Ok (APR_SUCCESS, t2)) /\
    existsb is_bridge_event evs2 = false /\
    h2_task_destroy t = (bridge_teardown t ++ evs2, Ok (APR_SUCCESS, t3)) /\
    t2 = set_aborted t3 1.
Proof.
  rewrite h2_task_abort_eq.
  eexists; eexists; eexists; eexists.
  split; [reflexivity|].
  split; [rewrite h2_task_destroy_eq; reflexivity|].
  split; [|split; [rewrite h2_task_destroy_eq; reflexivity|reflexivity]].
  simpl. destruct (mplx t), (pool t); reflexivity.
Qed.

(** X12: the life of a task that was created.  Take a task returned by
    [h2_task_create] for a multiplexer [m0], run it with [h2_task_do]
    (whatever the socket creation gives, whatever the pipeline does and
    whether or not it is aborted meanwhile), then destroy it.  Over the
    three operations the multiplexer is referenced once and released
    once, both times [m0], and the task's pool is destroyed once. *)
Theorem task_lifecycle_reference_balance
    sid stid master pool0 data eos (m0 : h2_mplx) e1 (t : h2_task)
    e2 st (t2 : h2_task) :
  h2_task_create sid stid master pool0 data eos (Some m0)
    = (e1, Ok (Some t)) ->
  h2_task_do t = (e2, Ok (st, t2)) ->
  exists e3 t3,
    h2_task_destroy t2 = (e3, Ok (APR_SUCCESS, t3)) /\
    references (e1 ++ e2 ++ e3) = [Some m0] /\
    releases (e1 ++ e2 ++ e3) = [m0] /\
    pool_destroys (e1 ++ e2 ++ e3) =
      match pool t with Some p => [p] | None => [] end.
Proof.
  intros Ec Ed.
  destruct (h2_task_create_analysis sid stid master pool0 data eos (Some m0))
    as [[_ H]|[H|[H|[conn H]]]]; rewrite H in Ec; try discriminate Ec.
  inversion Ec; subst e1 t. clear Ec H.
  match goal with
  | Hd : h2_task_do ?x = _ |- _ => set (t := x) in *
  end.
  assert (Hm : mplx t2 = Some m0 /\ pool t2 = pool t /\
               references e2 = [] /\ releases e2 = [] /\
               pool_destroys e2 = []).
  { destruct (apr_socket_create (pool t)) as [status s] eqn:Hs.
    destruct (Z.eq_dec status APR_SUCCESS) as [->|Hne].
    - destruct (h2_task_do_success_spec t conn s Hs eq_refl)
        as (evs & sts & t1 & _ & F & B & _ & Hdo).
      rewrite Hdo in Ed. inversion Ed; subst e2 st t2.
      destruct (bridge_events_only evs B) as (_ & R2 & R3 & R4 & _).
      destruct F as (_ & _ & _ & Fm & Fp & _).
      split; [exact Fm|]. split; [exact Fp|].
      change (references (?e :: ?l)) with (references l).
      change (releases (?e :: ?l)) with (releases l).
      change (pool_destroys (?e :: ?l)) with (pool_destroys l).
      rewrite !references_app, !releases_app, !pool_destroys_app, R2, R3, R4.
      destruct (h2_task_output_has_started (output t1)); repeat split.
    - rewrite (h2_task_do_failure t status s Hs Hne) in Ed.
      inversion Ed; subst e2 st t2. repeat split. }
  destruct Hm as (Hm & Hp & R2 & R3 & R4).
  eexists; eexists. split; [apply h2_task_destroy_eq|].
  change (references (?a :: ?b :: ?l)) with (Some m0 :: references l).
  change (releases (?a :: ?b :: ?l)) with (releases l).
  change (pool_destroys (?a :: ?b :: ?l)) with (pool_destroys l).
  rewrite !references_app, !releases_app, !pool_destroys_app, R2, R3, R4.
  destruct t2 as [? ? ? ? mx px ? ? i o]; simpl in Hm, Hp |- *.
  subst mx px. unfold t; simpl.
  destruct i, o, (snd apr_pool_create_ex); repeat split.
Qed.

(** X14: [h2_task_create] only ever takes from the multiplexer.  In
    every outcome it has released no multiplexer reference and destroyed
    no pool, not even the pool it created itself before a later step
    failed, and it has taken at most one reference, on the multiplexer
    passed in. *)
Theorem h2_task_create_never_releases sid stid master pool0 data eos m :
  releases (fst (h2_task_create sid stid master pool0 data eos m)) = [] /\
  pool_destroys (fst (h2_task_create sid stid master pool0 data eos m))
    = [] /\
  (references (fst (h2_task_create sid stid master pool0 data eos m)) = [] \/
   references (fst (h2_task_create sid stid master pool0 data eos m)) = [m]).
Proof.
  destruct (h2_task_create_analysis sid stid master pool0 data eos m)
    as [[_ H]|[H|[H|[conn H]]]]; rewrite H; simpl; auto.
Qed.

End Lifecycle.

(** * The theorems on explicit runs *)

Module Runs.

Import Scenario.

(** Scenario A: output was written, no reset. *)
Example scenario_A :
  @h2_task_create K_output 1 3 master None [5] 1 (Some 9) =
    ([Ev_mplx_reference (Some 9);
      Ev_ctx_create_for (slave_conn (Some 100) (Some 3) 1)],
     Ok (Some (fresh_task K_output 3))) /\
  resets (fst (h2_task_do (fresh_task K_output 3))) = [].
Proof. split; reflexivity. Qed.

(** Scenario B: nothing was written, one reset of stream 4. *)
Example scenario_B :
  resets (fst (h2_task_do (fresh_task K_silent 4))) =
    [(Some 9, 4, APR_SUCCESS)].
Proof. reflexivity. Qed.

(** Scenario C: no connection, no task, one reset of stream 1. *)
Example scenario_C :
  @h2_task_create K_no_conn 2 1 master None [5] 1 (Some 9) =
    ([Ev_mplx_reference (Some 9);
      Ev_mplx_out_reset (Some 9) 1 APR_EGENERAL], Ok None).
Proof. reflexivity. Qed.

(** Scenario D: after the abort the pipeline sees only
    [APR_ECONNABORTED]. *)
Example scenario_D :
  exists evs t,
    run_pipeline (@ap_process_connection_script K_aborted master None)
                 (fresh_task K_aborted 3) = (evs, Ok ([APR_SUCCESS;
                   APR_ECONNABORTED; APR_ECONNABORTED], t)) /\
    aborted t = 1.
Proof. eexists; eexists; split; reflexivity. Qed.

(** A failing pool creation resets with its status. *)
Example pool_failure :
  @h2_task_create K_no_pool 1 3 master (Some 50) [5] 1 (Some 9) =
    ([Ev_mplx_out_reset (Some 9) 3 APR_ENOMEM], Ok None).
Proof. reflexivity. Qed.

Lemma bridge_calls_after_abort_are_refused_witness :
  exists t',
    h2_task_abort (fresh_task K_output 3) =
      (bridge_teardown (fresh_task K_output 3), Ok t') /\
    h2_filter_stream_input t' [] 0 0 10 =
      ([], Ok (APR_ECONNABORTED, [], t')) /\
    h2_filter_stream_output t' [72; 105] = ([], Ok (APR_ECONNABORTED, t')).
Proof.
  destruct (@bridge_calls_after_abort_are_refused K_output
              (fresh_task K_output 3))
    as (_ & _ & t' & E & _ & _ & Hin & Hout & _).
  exists t'. split; [exact E|]. split; [apply Hin|apply Hout].
Defined.

Lemma running_round_trip_witness :
  - 2 ^ 31 <= -1 < 2 ^ 31 /\
  h2_task_is_running (h2_task_set_running (fresh_task K_output 3) (-1))
    = -1.
Proof.
  split; [lia|].
  apply (@running_round_trip K_output (fresh_task K_output 3) (-1)). lia.
Defined.



Lemma h2_task_do_socket_failure_witness :
  h2_task_do (fresh_task K_no_socket 3) =
    ([Ev_mplx_out_reset (Some 9) 3 24],
     Ok (24, set_socket (fresh_task K_no_socket 3) None)).
Proof.
  apply (@h2_task_do_socket_failure K_no_socket
           (fresh_task K_no_socket 3) 24 None).
  - reflexivity.
  - discriminate.
Defined.

Lemma h2_task_do_returns_success_witness :
  exists evs t',
    h2_task_do (fresh_task K_silent 4) = (evs, Ok (APR_SUCCESS, t')) /\
    forall m sid st, In (m, sid, st) (resets evs) -> st = APR_SUCCESS.
Proof.
  apply (@h2_task_do_returns_success K_silent (fresh_task K_silent 4)
           (slave_conn (Some 100) (Some 3) 1) (Some 7));
    reflexivity.
Defined.

Lemma h2_task_destroy_twice_destroys_pool_twice_witness :
  exists evs t1,
    h2_task_destroy (fresh_task K_output 3) =
      (evs, Ok (APR_SUCCESS, t1)) /\
    pool_destroys evs = [100] /\
    h2_task_destroy t1 = ([Ev_pool_destroy 100], Ok (APR_SUCCESS, t1)).
Proof.
  apply (@h2_task_destroy_twice_destroys_pool_twice K_output
           (fresh_task K_output 3) 100).
  reflexivity.
Defined.

Lemma h2_task_create_alloc_failure_faults_witness :
  @h2_task_create K_no_memory 1 3 master None [5] 1 (Some 9) =
    ([], Fault) /\
  resets (fst (@h2_task_create K_no_memory 1 3 master None [5] 1 (Some 9)))
    = [].
Proof.
  apply (@h2_task_create_alloc_failure_faults K_no_memory
           1 3 master None [5] 1 (Some 9) (Some 100));
    reflexivity.
Defined.

Lemma h2_task_create_conn_failure_leaks_reference_witness :
  exists evs,
    @h2_task_create K_no_conn 2 1 master None [5] 1 (Some 9) =
      (evs, Ok None) /\
    references evs = [Some 9] /\ releases evs = [].
Proof.
  apply (@h2_task_create_conn_failure_leaks_reference K_no_conn
           2 1 master None [5] 1 (Some 9) (Some 100));
    reflexivity.
Defined.

Lemma h2_task_create_owns_fresh_pool_witness :
  exists evs t,
    @h2_task_create K_output 1 3 master (Some 50) [5] 1 (Some 9) =
      (evs, Ok (Some t)) /\
    pool t = Some 100.
Proof.
  destruct (@h2_task_create_owns_fresh_pool K_output 1 3 master (Some 50)
              None [5] 1 (Some 9)) as (_ & _ & H & _).
  destruct (H (Some 100) (slave_conn (Some 100) (Some 3) 1)
              eq_refl eq_refl eq_refl) as (evs & t & E & Hp & _).
  exists evs, t. split; [exact E|exact Hp].
Defined.

End Runs.

(** * The further properties on explicit runs *)

Module LifecycleRuns.

Import Scenario.

Lemma h2_task_create_returns_initialised_task_witness :
  h2_task_get_session_id (fresh_task K_output 3) = 1 /\
  h2_task_get_stream_id (fresh_task K_output 3) = 3 /\
  h2_task_is_running (fresh_task K_output 3) = 0.
Proof.
  destruct (@h2_task_create_returns_initialised_task K_output
              1 3 master None [5] 1 (Some 9)
              [Ev_mplx_reference (Some 9);
               Ev_ctx_create_for (slave_conn (Some 100) (Some 3) 1)]
              (fresh_task K_output 3) eq_refl)
    as (H1 & H2 & _ & H4 & _).
  split; [exact H1|]. split; [exact H2|exact H4].
Defined.

Lemma h2_task_do_runs_pipeline_once_witness :
  exists evs t',
    h2_task_do (fresh_task K_output 3) =
      (Ev_process_connection
         (ap_set_module_config (slave_conn (Some 100) (Some 3) 1) (Some 7))
         (Some 7) :: evs ++ [Ev_socket_close (Some 7)],
       Ok (APR_SUCCESS, t')) /\
    existsb is_process_connection evs = false /\
    existsb is_socket_close evs = false.
Proof.
  destruct (@h2_task_do_runs_pipeline_once K_output (fresh_task K_output 3)
              (slave_conn (Some 100) (Some 3) 1) (Some 7) eq_refl eq_refl)
    as (evs & t' & E & _ & P & S & _).
  exists evs, t'. split; [exact E|]. split; [exact P|exact S].
Defined.

Lemma h2_task_do_frame_witness :
  fst (h2_task_do (fresh_task K_no_socket 3)) =
    [Ev_mplx_out_reset (Some 9) 3 24] /\
  (24 = fst (@apr_socket_create K_no_socket (Some 100)) /\
   mplx (set_socket (fresh_task K_no_socket 3) None) = Some 9).
Proof.
  split; [reflexivity|].
  destruct (@h2_task_do_frame K_no_socket (fresh_task K_no_socket 3)
              [Ev_mplx_out_reset (Some 9) 3 24] 24
              (set_socket (fresh_task K_no_socket 3) None) eq_refl)
    as (H1 & _ & _ & _ & _ & H6 & _).
  split; [exact H1|exact H6].
Defined.

Lemma h2_task_do_after_abort_witness :
  exists t1 t2,
    h2_task_abort (fresh_task K_output 3) =
      (bridge_teardown (fresh_task K_output 3), Ok t1) /\
    h2_task_do t1 =
      ([Ev_process_connection
          (ap_set_module_config (slave_conn (Some 100) (Some 3) 1) (Some 7))
          (Some 7);
        Ev_mplx_out_reset (Some 9) 3 APR_SUCCESS;
        Ev_socket_close (Some 7)],
       Ok (APR_SUCCESS, t2)).
Proof.
  destruct (@h2_task_do_after_abort K_output (fresh_task K_output 3)
              (slave_conn (Some 100) (Some 3) 1) (Some 7) eq_refl eq_refl)
    as (t1 & t2 & Ea & Ed & _).
  exists t1, t2. split; [exact Ea|exact Ed].
Defined.

Lemma task_lifecycle_reference_balance_witness :
  exists e1 e2 e3 st t2 t3,
    @h2_task_create K_aborted 1 3 master None [5] 1 (Some 9) =
      (e1, Ok (Some (fresh_task K_aborted 3))) /\
    h2_task_do (fresh_task K_aborted 3) = (e2, Ok (st, t2)) /\
    h2_task_destroy t2 = (e3, Ok (APR_SUCCESS, t3)) /\
    references (e1 ++ e2 ++ e3) = [Some 9] /\
    releases (e1 ++ e2 ++ e3) = [9] /\
    pool_destroys (e1 ++ e2 ++ e3) = [100].
Proof.
  eexists; eexists.
  destruct (@task_lifecycle_reference_balance K_aborted
              1 3 master None [5] 1 9 _ (fresh_task K_aborted 3) _ _ _
              eq_refl eq_refl)
    as (e3 & t3 & E3 & R1 & R2 & R3).
  exists e3. eexists; eexists; exists t3.
  split; [reflexivity|]. split; [reflexivity|].
  split; [exact E3|]. split; [exact R1|]. split; [exact R2|exact R3].
Defined.

End LifecycleRuns.
